(** * The "Block Party" block of cgb-hello-gutenberg

    A shallow embedding of [src/block/block.js]: the attribute record, the
    edit-time render function with its media-selection handler, and the
    save-time serializer, followed by the properties the block's
    specification states about them.

    The block is a registration against a host editor.  What the host
    supplies is kept apart from what the block itself does:
    - [getColorClassName] (the theme colour-class lookup) and [__] (the
      label lookup) are parameters of the development;
    - [classnames], [noop] and the attribute setter are small library or
      host functions, written out below from their documented behaviour;
    - everything else is the code of [block.js]. *)

From Stdlib Require Import ZArith NArith Ascii String.
From stdpp Require Import base option strings list gmap sorting.

Set Warnings "-register-all".
#[local] Open Scope string_scope.

(** ** JavaScript values *)

(** Functions that the block creates or receives, as closures: a code
    pointer with the variables it captures. *)
Inductive closure :=
  | ToggleExtras (extras : bool)
      (* () => setAttributes( { extras: ! extras } ) *)
  | SetBackgroundColor
      (* the setter handed down by withColors *)
  | SetContentAlign
      (* nextContentAlign => setAttributes( { contentAlign: nextContentAlign } ) *)
  | OnUploadImage
      (* onUploadImage *)
  | RenderMedia (imgUrl mediaType : option string)
      (* ( { open } ) => <Button onClick={ open }>...</Button> *)
  | SetContent
      (* content => setAttributes( { content } ) *)
  | Open.
      (* the picker's own open() *)

Inductive jsval :=
  | JUndef
  | JBool (b : bool)
  | JNum (n : Z)
  | JStr (s : string)
  | JArr (items : list jsval)
  | JObj (fields : list (string * jsval))
  | JFun (f : closure).

(** An attribute that is a string or absent. *)
Definition ostr (v : option string) : jsval := from_option JStr JUndef v.
Definition oarr (v : option (list jsval)) : jsval := from_option JArr JUndef v.

(** ToBoolean, at the types the block tests. *)
Class Truthy (A : Type) := truthy : A → bool.
#[global] Instance bool_truthy : Truthy bool := λ b, b.
#[global] Instance string_truthy : Truthy string := λ s, negb (String.eqb s "").
#[global] Instance option_truthy `{Truthy A} : Truthy (option A) :=
  λ o, from_option truthy false o.

(** [a || b] *)
Definition or_else `{Truthy A} (a b : A) : A := if truthy a then a else b.

(** ToString of a string-or-undefined value, as a template literal or a
    computed property key takes it. *)
Definition toString (v : option string) : string := default "undefined" v.

(** ** Object literals

    An object is its list of own properties in creation order.  Defining a
    key a second time replaces the value and keeps the position. *)
Section Objects.
Context {A : Type}.

Fixpoint define (k : string) (v : A) (o : list (string * A)) : list (string * A) :=
  match o with
  | [] => [(k, v)]
  | (k', v') :: o' =>
      if decide (k = k') then (k, v) :: o' else (k', v') :: define k v o'
  end.

(** { k1: v1, k2: v2, ... } *)
Definition literal (defs : list (string * A)) : list (string * A) :=
  fold_left (λ o kv, define kv.1 kv.2 o) defs [].

(** o[k] on own properties *)
Fixpoint get (k : string) (o : list (string * A)) : option A :=
  match o with
  | [] => None
  | (k', v) :: o' => if decide (k = k') then Some v else get k o'
  end.
End Objects.

(** Property enumeration (for-in, Object.keys) lists array-index keys
    first, by ascending value, then the other keys in creation order.  An
    array index is the canonical decimal form of an integer below 2^32-1. *)
Definition digit (c : ascii) : option N :=
  let n := N_of_ascii c in
  if ((48 <=? n) && (n <=? 57))%N then Some (n - 48)%N else None.

Fixpoint digits (s : string) (acc : N) : option N :=
  match s with
  | EmptyString => Some acc
  | String c s' =>
      match digit c with
      | Some d => digits s' (10 * acc + d)%N
      | None => None
      end
  end.

Definition arrayIndex (k : string) : option N :=
  match k with
  | EmptyString => None
  | String c rest =>
      if (Ascii.eqb c "0" && negb (String.eqb rest ""))%bool then None
      else match digits k 0 with
           | Some n => if (n <? 4294967295)%N then Some n else None
           | None => None
           end
  end.

Definition index_le {A} (x y : N * (string * A)) : Prop := (x.1 ≤ y.1)%N.
#[global] Instance index_le_dec {A} : RelDecision (@index_le A).
Proof. intros x y. unfold index_le. apply _. Defined.

Definition ownEntries {A} (o : list (string * A)) : list (string * A) :=
  let indexed := omap (λ kv, (λ n, (n, kv)) <$> arrayIndex kv.1) o in
  let named := filter (λ kv, arrayIndex kv.1 = None) o in
  (snd <$> merge_sort index_le indexed) ++ named.

(** ** classnames

    The [classnames] package: each argument is a string (kept when truthy)
    or an object (each own key whose value is truthy is kept); the result
    joins them with single spaces. *)
Inductive classArg :=
  | ClassStr (v : option string)
  | ClassObj (o : list (string * option string)).

Definition classArgNames (a : classArg) : list string :=
  match a with
  | ClassStr v => if truthy v then [toString v] else []
  | ClassObj o => fst <$> filter (λ kv, truthy kv.2 = true) (ownEntries o)
  end.

Definition classList (args : list classArg) : list string :=
  args ≫= classArgNames.

Definition classnames (args : list classArg) : string :=
  String.concat " " (classList args).

(** ** Element trees

    What JSX builds: an element with its props and children, a text child,
    or the value of a braced expression used as a child. *)
Inductive element :=
  | Elem (tag : string) (props : list (string * jsval)) (children : list element)
  | Text (s : string)
  | Lit (v : jsval).

(** ** The block's data *)

(** The attribute record, typed by the [attributes] schema of the
    registration: every attribute may be absent except [extras], for which
    the host fills in the declared default. *)
Module Attributes.
Record t := {
  content : option (list jsval);
  imgId : option Z;
  imgUrl : option string;
  mediaType : option string;
  backgroundColor : option string;
  customBackgroundColor : option string;
  extras : bool;
  contentAlign : option string;
}.

(** A freshly inserted block. *)
Definition initial : t :=
  {| content := None; imgId := None; imgUrl := None; mediaType := None;
     backgroundColor := None; customBackgroundColor := None;
     extras := true; contentAlign := None |}.
End Attributes.

(** The colour object that [withColors( 'backgroundColor' )] passes down. *)
Record colorObject := { color : option string; class : option string }.

(** The props of [edit] and [save].  [save] is handed the same kind of
    object and reads nothing but [attributes] from it. *)
Module Props.
Record t := {
  isSelected : bool;
  className : option string;
  attributes : Attributes.t;
  backgroundColor : colorObject;
}.
End Props.

(** The selection object of the media picker. *)
Module Media.
Record t := {
  media_type : option string;
  type : option string;
  url : option string;
  id : option Z;
}.
End Media.

(** The argument of [setAttributes]: an object holding some of the
    attribute keys.  [None] is a key that the object does not have;
    [Some v] is a key with value [v], which may itself be undefined. *)
Module Patch.
Record t := {
  content : option (option (list jsval));
  imgId : option (option Z);
  imgUrl : option (option string);
  mediaType : option (option string);
  backgroundColor : option (option string);
  customBackgroundColor : option (option string);
  extras : option bool;
  contentAlign : option (option string);
}.
End Patch.

(** The host's attribute setter merges the keys of its argument into the
    record and leaves the others as they are. *)
Definition setAttributes (u : Patch.t) (a : Attributes.t) : Attributes.t :=
  {| Attributes.content := default (Attributes.content a) (Patch.content u);
     Attributes.imgId := default (Attributes.imgId a) (Patch.imgId u);
     Attributes.imgUrl := default (Attributes.imgUrl a) (Patch.imgUrl u);
     Attributes.mediaType := default (Attributes.mediaType a) (Patch.mediaType u);
     Attributes.backgroundColor :=
       default (Attributes.backgroundColor a) (Patch.backgroundColor u);
     Attributes.customBackgroundColor :=
       default (Attributes.customBackgroundColor a) (Patch.customBackgroundColor u);
     Attributes.extras := default (Attributes.extras a) (Patch.extras u);
     Attributes.contentAlign :=
       default (Attributes.contentAlign a) (Patch.contentAlign u) |}.

(** A handler's effect is the sequence of setter calls it makes. *)
Definition dispatch (calls : list Patch.t) (a : Attributes.t) : Attributes.t :=
  fold_left (λ a u, setAttributes u a) calls a.

(** ** Failure *)

Inductive error := TypeError.

Inductive outcome (A : Type) :=
  | Returned (a : A)
  | Threw (e : error).
Arguments Returned {A} a.
Arguments Threw {A} e.

Definition bind {A B} (m : outcome A) (k : A → outcome B) : outcome B :=
  match m with
  | Returned a => k a
  | Threw e => Threw e
  end.

(** ** Property lookup on an object literal

    [o[ k ]] on an object written as a literal finds the literal's own
    properties first and then those of [Object.prototype], which every
    literal inherits. *)
Inductive builtin :=
  | ObjectConstructor
  | ObjectToString
  | ToLocaleString
  | ValueOf
  | HasOwnProperty
  | IsPrototypeOf
  | PropertyIsEnumerable
  | DefineGetter
  | DefineSetter
  | LookupGetter
  | LookupSetter.

Inductive member :=
  | Arrow (body : element)   (* () => body *)
  | Noop                     (* lodash's noop *)
  | Builtin (b : builtin)    (* a method of Object.prototype *)
  | ObjectPrototype.         (* the prototype object, read through __proto__ *)

Definition objectPrototype : list (string * member) :=
  [("constructor", Builtin ObjectConstructor);
   ("toString", Builtin ObjectToString);
   ("toLocaleString", Builtin ToLocaleString);
   ("valueOf", Builtin ValueOf);
   ("hasOwnProperty", Builtin HasOwnProperty);
   ("isPrototypeOf", Builtin IsPrototypeOf);
   ("propertyIsEnumerable", Builtin PropertyIsEnumerable);
   ("__defineGetter__", Builtin DefineGetter);
   ("__defineSetter__", Builtin DefineSetter);
   ("__lookupGetter__", Builtin LookupGetter);
   ("__lookupSetter__", Builtin LookupSetter);
   ("__proto__", ObjectPrototype)].

Definition getProperty (o : list (string * member)) (k : string) : option member :=
  match get k o with
  | Some m => Some m
  | None => get k objectPrototype
  end.

(** [f()] for a function value that is not a property reference: no
    receiver and no arguments.  The methods of [Object.prototype] convert
    their receiver to an object first, which fails for undefined, except
    [toString], [isPrototypeOf] (which looks at its argument first) and
    the [Object] constructor.  The prototype object itself cannot be
    called. *)
Definition callBuiltin (b : builtin) : outcome element :=
  match b with
  | ObjectConstructor => Returned (Lit (JObj []))
  | ObjectToString => Returned (Lit (JStr "[object Undefined]"))
  | IsPrototypeOf => Returned (Lit (JBool false))
  | ToLocaleString | ValueOf | HasOwnProperty | PropertyIsEnumerable
  | DefineGetter | DefineSetter | LookupGetter | LookupSetter => Threw TypeError
  end.

Definition call (f : member) : outcome element :=
  match f with
  | Arrow body => Returned body
  | Noop => Returned (Lit JUndef)
  | Builtin b => callBuiltin b
  | ObjectPrototype => Threw TypeError
  end.

(** The inherited property names whose value cannot be called this way. *)
Definition uncallable : list string :=
  ["toLocaleString"; "valueOf"; "hasOwnProperty"; "propertyIsEnumerable";
   "__defineGetter__"; "__defineSetter__"; "__lookupGetter__"; "__lookupSetter__";
   "__proto__"].

(** ** The block *)

Section Block.
(** The host's colour-class lookup and label lookup. *)
Variable getColorClassName : string → option string → option string.
Variable __ : string → string.

(** *** edit *)

Definition editClassArgs (p : Props.t) : list classArg :=
  let backgroundColor := Props.backgroundColor p in
  let contentAlign := Attributes.contentAlign (Props.attributes p) in
  [ClassStr (Props.className p);
   ClassObj (literal
     [(toString (class backgroundColor), class backgroundColor);
      ("has-" +:+ toString contentAlign +:+ "-content", contentAlign)])].

Definition editStyles (p : Props.t) : list (string * jsval) :=
  [("backgroundColor", ostr (color (Props.backgroundColor p)));
   ("textAlign", ostr (Attributes.contentAlign (Props.attributes p)))].

Definition onUploadImage (media : Media.t) : list Patch.t :=
  let mediaType :=
    if truthy (Media.media_type media) then
      if decide (Media.media_type media = Some "image") then Some "image"
      else Some "video"
    else Media.type media in
  [{| Patch.content := None;
      Patch.imgId := Some (Media.id media);
      Patch.imgUrl := Some (Media.url media);
      Patch.mediaType := Some mediaType;
      Patch.backgroundColor := None;
      Patch.customBackgroundColor := None;
      Patch.extras := None;
      Patch.contentAlign := None |}].

Definition getMedia (imgUrl mediaType : option string) : element :=
  if decide (mediaType = Some "image") then
    Elem "img" [("src", ostr imgUrl)] []
  else
    Elem "video" [("controls", JBool true); ("src", ostr imgUrl)] [].

(** The render prop of the media picker, applied to the picker's [open]. *)
Definition renderMedia (imgUrl mediaType : option string) (open : closure) : element :=
  Elem "Button" [("onClick", JFun open)]
    [if negb (truthy imgUrl) then Elem "Dashicon" [("icon", JStr "format-image")] []
     else getMedia imgUrl mediaType].

Definition editExtras : element :=
  Elem "div" []
    [Elem "p" [] [Text "— Hello from the bssackend."];
     Elem "p" []
       [Text "CGB BLOCK: ";
        Elem "code" [] [Text "cgb-hello-gutenberg"];
        Text " is a new Gutenberg block"]].

Definition editControls (p : Props.t) : element :=
  let a := Props.attributes p in
  let extras := Attributes.extras a in
  Elem "Fragment" []
    [Elem "InspectorControls" []
       [Elem "PanelBody"
          [("title", JStr (__ "Party Settings")); ("initialOpen", JBool false)]
          [Elem "ToggleControl"
             [("label", JStr (__ "View Extras"));
              ("checked", JBool extras);
              ("onChange", JFun (ToggleExtras extras));
              ("help", JStr (if extras then __ "Showing the extras."
                             else __ "Toggle to show the extras."))]
             []];
        Elem "PanelColorSettings"
          [("title", JStr (__ "Color Settings"));
           ("initialOpen", JBool false);
           ("colorSettings",
            JArr [JObj [("value", ostr (color (Props.backgroundColor p)));
                        ("onChange", JFun SetBackgroundColor);
                        ("label", JStr (__ "Background Color"))]])]
          []];
     Elem "BlockControls" []
       [Elem "AlignmentToolbar"
          [("value", ostr (Attributes.contentAlign a));
           ("onChange", JFun SetContentAlign)]
          []]].

Definition edit (p : Props.t) : element :=
  let a := Props.attributes p in
  let imgUrl := Attributes.imgUrl a in
  let mediaType := Attributes.mediaType a in
  let classes := classnames (editClassArgs p) in
  let styles := editStyles p in
  Elem "div" [("className", JStr classes); ("style", JObj styles)]
    [if Props.isSelected p then editControls p else Lit (JBool false);
     Elem "MediaUploadCheck" []
       [Elem "MediaUpload"
          [("onSelect", JFun OnUploadImage);
           ("allowedTypes", JArr [JStr "image"; JStr "video"]);
           ("value", ostr imgUrl);
           ("render", JFun (RenderMedia imgUrl mediaType))]
          []];
     Elem "RichText"
       [("tagName", JStr "p");
        ("className", ostr (Props.className p));
        ("onChange", JFun SetContent);
        ("value", oarr (Attributes.content a))]
       [];
     if Attributes.extras a then editExtras else Lit (JBool false)].

(** *** save *)

Definition mediaTypeRenders (p : Props.t) : list (string * member) :=
  let imgUrl := Attributes.imgUrl (Props.attributes p) in
  literal
    [("image", Arrow (Elem "img" [("src", ostr imgUrl)] []));
     ("video", Arrow (Elem "video" [("controls", JBool true); ("src", ostr imgUrl)] []))].

Definition backgroundClass (p : Props.t) : option string :=
  getColorClassName "background-color" (Attributes.backgroundColor (Props.attributes p)).

Definition saveClassArgs (p : Props.t) : list classArg :=
  let a := Props.attributes p in
  [ClassObj (literal
     [("has-background",
       or_else (Attributes.backgroundColor a) (Attributes.customBackgroundColor a));
      (toString (backgroundClass p), backgroundClass p);
      ("has-" +:+ toString (Attributes.contentAlign a) +:+ "-content",
       Attributes.contentAlign a)])].

Definition saveStyles (p : Props.t) : list (string * jsval) :=
  let a := Props.attributes p in
  [("backgroundColor",
    if truthy (backgroundClass p) then JUndef
    else ostr (Attributes.customBackgroundColor a));
   ("textAlign", ostr (Attributes.contentAlign a))].

Definition saveMedia (p : Props.t) : outcome element :=
  let mediaType := Attributes.mediaType (Props.attributes p) in
  call (default Noop (getProperty (mediaTypeRenders p) (toString mediaType))).

Definition saveExtras : element :=
  Elem "div" []
    [Elem "p" []
       [Text "CGB BLOCK: ";
        Elem "code" [] [Text "cgb-hello-gutenberg"];
        Text " is a new Gutenberg block."];
     Elem "p" []
       [Text "It was created via";
        Lit (JStr " ");
        Elem "code" []
          [Elem "a" [("href", JStr "https://github.com/ahmadawais/create-guten-block")]
             [Text "create-guten-block"]];
        Text "."]].

Definition save (p : Props.t) : outcome element :=
  let a := Props.attributes p in
  let classes := classnames (saveClassArgs p) in
  let styles := saveStyles p in
  bind (saveMedia p) (λ media,
    Returned
      (Elem "div" [("className", JStr classes); ("style", JObj styles)]
         [media;
          Elem "RichText.Content"
            [("tagName", JStr "p"); ("value", oarr (Attributes.content a))] [];
          if Attributes.extras a then saveExtras else Lit (JBool false)])).
End Block.

(** ** Reading element trees *)

(** What the editor shows: the media picker puts the result of its render
    prop, called with its own [open], where the picker stands. *)
Fixpoint display (e : element) : element :=
  match e with
  | Elem tag props children =>
      match get "render" props with
      | Some (JFun (RenderMedia imgUrl mediaType)) => renderMedia imgUrl mediaType Open
      | _ => Elem tag props (display <$> children)
      end
  | _ => e
  end.

(** The elements of a tree, the root included, in document order. *)
Fixpoint descendants (e : element) : list element :=
  match e with
  | Elem _ _ children => e :: (children ≫= descendants)
  | _ => []
  end.

Definition tagOf (e : element) : string :=
  match e with
  | Elem tag _ _ => tag
  | _ => ""
  end.

Definition elementsByTag (tag : string) (e : element) : list element :=
  filter (λ d, tagOf d = tag) (descendants e).

Definition prop (k : string) (e : element) : option jsval :=
  match e with
  | Elem _ props _ => get k props
  | _ => None
  end.

Definition childNodes (e : element) : list element :=
  match e with
  | Elem _ _ children => children
  | _ => []
  end.

(** The class names of a [classnames] call, as a set. *)
Definition classSet (args : list classArg) : gset string :=
  list_to_set (classList args).

(** ** Sample inputs *)

(** A colour-class lookup of the host's shape: no class for an absent or
    empty slug, [has-<slug>-<context>] otherwise. *)
Definition slugClassName (context : string) (slug : option string) : option string :=
  if truthy slug then Some ("has-" +:+ toString slug +:+ "-" +:+ context) else None.

Definition noColor : colorObject := {| color := None; class := None |}.

Definition propsOf (a : Attributes.t) : Props.t :=
  {| Props.isSelected := false; Props.className := None;
     Props.attributes := a; Props.backgroundColor := noColor |}.

Definition mediaBlock (mediaType imgUrl : option string) : Attributes.t :=
  {| Attributes.content := None; Attributes.imgId := None;
     Attributes.imgUrl := imgUrl; Attributes.mediaType := mediaType;
     Attributes.backgroundColor := None; Attributes.customBackgroundColor := None;
     Attributes.extras := true; Attributes.contentAlign := None |}.

Definition colouredBlock (backgroundColor customBackgroundColor : option string)
    : Attributes.t :=
  {| Attributes.content := None; Attributes.imgId := None;
     Attributes.imgUrl := None; Attributes.mediaType := None;
     Attributes.backgroundColor := backgroundColor;
     Attributes.customBackgroundColor := customBackgroundColor;
     Attributes.extras := false; Attributes.contentAlign := None |}.

(** A block with a custom background colour only, as the editor sees it:
    no theme class, no class name from the host. *)
Definition customRed : Props.t :=
  {| Props.isSelected := false; Props.className := None;
     Props.attributes := colouredBlock None (Some "#ff0000");
     Props.backgroundColor := {| color := Some "#ff0000"; class := None |} |}.

(** A selected block with a theme colour, centred text and the class name
    the host derives from the block name. *)
Definition themedRed : Props.t :=
  {| Props.isSelected := true;
     Props.className := Some "wp-block-cgb-block-cgb-hello-gutenberg";
     Props.attributes :=
       {| Attributes.content := Some [JStr "Hello"]; Attributes.imgId := None;
          Attributes.imgUrl := None; Attributes.mediaType := None;
          Attributes.backgroundColor := Some "vivid-red";
          Attributes.customBackgroundColor := None;
          Attributes.extras := true; Attributes.contentAlign := Some "center" |};
     Props.backgroundColor :=
       {| color := Some "#cf2e2e"; class := Some "has-vivid-red-background-color" |} |}.

(** The label lookup taken as the identity. *)
Definition sameLabel (label : string) : string := label.

Definition uploaded (media_type type : option string) : Media.t :=
  {| Media.media_type := media_type; Media.type := type;
     Media.url := Some "https://example.org/party.mp4"; Media.id := Some 7%Z |}.

(** ** The other handlers of [edit]

    What the closures that [edit] hands to its controls do when a control
    calls them: each makes one [setAttributes] call. *)

(** [ToggleExtras extras]: () => setAttributes( { extras: ! extras } ),
    with the [extras] of the render that created it. *)
Definition toggleExtras (extras : bool) : list Patch.t :=
  [{| Patch.content := None; Patch.imgId := None; Patch.imgUrl := None;
      Patch.mediaType := None; Patch.backgroundColor := None;
      Patch.customBackgroundColor := None;
      Patch.extras := Some (negb extras);
      Patch.contentAlign := None |}].

(** [SetContentAlign]:
    ( nextContentAlign ) => setAttributes( { contentAlign: nextContentAlign } ) *)
Definition setContentAlign (nextContentAlign : option string) : list Patch.t :=
  [{| Patch.content := None; Patch.imgId := None; Patch.imgUrl := None;
      Patch.mediaType := None; Patch.backgroundColor := None;
      Patch.customBackgroundColor := None; Patch.extras := None;
      Patch.contentAlign := Some nextContentAlign |}].

(** [SetContent]: ( content ) => setAttributes( { content } ) *)
Definition setContent (content : option (list jsval)) : list Patch.t :=
  [{| Patch.content := Some content; Patch.imgId := None; Patch.imgUrl := None;
      Patch.mediaType := None; Patch.backgroundColor := None;
      Patch.customBackgroundColor := None; Patch.extras := None;
      Patch.contentAlign := None |}].

(** The props of the next render: the host calls [edit] again with the
    new attributes and the other props as they were. *)
Definition rerender (p : Props.t) (a : Attributes.t) : Props.t :=
  {| Props.isSelected := Props.isSelected p;
     Props.className := Props.className p;
     Props.attributes := a;
     Props.backgroundColor := Props.backgroundColor p |}.

(** The media elements of a tree. *)
Definition mediaElements (e : element) : list element :=
  (elementsByTag "img" e ++ elementsByTag "video" e)%list.

(** The tags of the controls that [edit] adds for a selected block. *)
Definition controlTags : list string :=
  ["Fragment"; "InspectorControls"; "PanelBody"; "ToggleControl";
   "PanelColorSettings"; "BlockControls"; "AlignmentToolbar"].

(** A value that holds no function, and a tree none of whose props or
    braced children holds one: what can be written out as static markup. *)
Fixpoint functionFree (v : jsval) : bool :=
  match v with
  | JFun _ => false
  | JArr items => forallb functionFree items
  | JObj fields => forallb (λ kv, let '(_, x) := kv in functionFree x) fields
  | _ => true
  end.

Fixpoint staticTree (e : element) : bool :=
  match e with
  | Elem _ props children =>
      forallb (λ kv, functionFree kv.2) props && forallb staticTree children
  | Text _ => true
  | Lit v => functionFree v
  end.

(** * Properties *)

(** ** The media-selection handler *)

(** C1. Selecting a media item sets [mediaType] to "image" when the
    selection's [media_type] is "image", to "video" when it is any other
    non-empty [media_type], and to the selection's [type] when the
    selection has no [media_type]. *)
Theorem onUploadImage_mediaType (media : Media.t) (a : Attributes.t) :
  (Media.media_type media = Some "image" →
     Attributes.mediaType (dispatch (onUploadImage media) a) = Some "image") ∧
  (∀ kind, Media.media_type media = Some kind → kind ≠ "" → kind ≠ "image" →
     Attributes.mediaType (dispatch (onUploadImage media) a) = Some "video") ∧
  (Media.media_type media = None →
     Attributes.mediaType (dispatch (onUploadImage media) a) = Media.type media).
Proof.
  unfold onUploadImage, dispatch; simpl.
  split; [|split].
  - intros ->. reflexivity.
  - intros kind -> Hne Himg.
    assert (truthy (Some kind) = true) as ->.
    { destruct kind; [congruence | reflexivity]. }
    destruct (decide (Some kind = Some "image")) as [[=]|]; [congruence | reflexivity].
  - intros ->. reflexivity.
Qed.

Lemma onUploadImage_mediaType_witness :
  Attributes.mediaType
    (dispatch (onUploadImage (uploaded (Some "image") None)) Attributes.initial)
    = Some "image" ∧
  Attributes.mediaType
    (dispatch (onUploadImage (uploaded (Some "file") None)) Attributes.initial)
    = Some "video" ∧
  Attributes.mediaType
    (dispatch (onUploadImage (uploaded None (Some "video"))) Attributes.initial)
    = Some "video".
Proof.
  split; [|split].
  - apply (proj1 (onUploadImage_mediaType (uploaded (Some "image") None)
                    Attributes.initial)).
    reflexivity.
  - apply (proj1 (proj2 (onUploadImage_mediaType (uploaded (Some "file") None)
                           Attributes.initial)) "file").
    + reflexivity.
    + discriminate.
    + discriminate.
  - apply (proj2 (proj2 (onUploadImage_mediaType (uploaded None (Some "video"))
                           Attributes.initial))).
    reflexivity.
Defined.

(** C9. A media selection makes one setter call, whose argument holds the
    keys [imgUrl], [imgId] and [mediaType] and no other; the remaining
    attributes keep their values. *)
Theorem onUploadImage_frame (media : Media.t) (a : Attributes.t) :
  (∃ u, onUploadImage media = [u] ∧
        Patch.imgUrl u = Some (Media.url media) ∧
        Patch.imgId u = Some (Media.id media) ∧
        is_Some (Patch.mediaType u) ∧
        Patch.content u = None ∧
        Patch.backgroundColor u = None ∧
        Patch.customBackgroundColor u = None ∧
        Patch.extras u = None ∧
        Patch.contentAlign u = None) ∧
  let a' := dispatch (onUploadImage media) a in
  Attributes.imgUrl a' = Media.url media ∧
  Attributes.imgId a' = Media.id media ∧
  Attributes.content a' = Attributes.content a ∧
  Attributes.backgroundColor a' = Attributes.backgroundColor a ∧
  Attributes.customBackgroundColor a' = Attributes.customBackgroundColor a ∧
  Attributes.extras a' = Attributes.extras a ∧
  Attributes.contentAlign a' = Attributes.contentAlign a.
Proof.
  split.
  - eexists. split; [reflexivity|]. simpl. repeat split; eauto.
  - simpl. repeat split.
Qed.

(** ** Objects and element trees *)

Lemma get_elem_of {A} (k : string) (v : A) (o : list (string * A)) :
  get k o = Some v → (k, v) ∈ o.
Proof.
  induction o as [|[k' v'] o IH]; simpl; [discriminate|].
  destruct (decide (k = k')) as [->|_].
  - intros [= ->]. left.
  - intros H. right. auto.
Qed.

Lemma descendants_Elem (tag : string) (props : list (string * jsval))
    (children : list element) :
  descendants (Elem tag props children)
  = Elem tag props children :: (children ≫= descendants).
Proof. reflexivity. Qed.

Lemma descendants_self (tag : string) (props : list (string * jsval))
    (children : list element) :
  Elem tag props children ∈ descendants (Elem tag props children).
Proof. rewrite descendants_Elem. left. Qed.

Lemma filter_bind {A B} (P : B → Prop) `{∀ x, Decision (P x)}
    (f : A → list B) (l : list A) :
  filter P (l ≫= f) = l ≫= (λ x, filter P (f x)).
Proof.
  induction l as [|x l IH]; [done|].
  by rewrite !bind_cons, filter_app, IH.
Qed.

Lemma elementsByTag_Elem (tag t : string) (props : list (string * jsval))
    (children : list element) :
  elementsByTag tag (Elem t props children)
  = ((if decide (t = tag) then [Elem t props children] else [])
     ++ (children ≫= elementsByTag tag))%list.
Proof.
  unfold elementsByTag. rewrite descendants_Elem, filter_cons, filter_bind.
  simpl tagOf. by destruct (decide (t = tag)).
Qed.

(** Take [elementsByTag] through a tree whose tags are known. *)
Ltac by_tags :=
  repeat first
    [ rewrite elementsByTag_Elem
    | rewrite bind_cons
    | progress (change (@nil element ≫= elementsByTag ?t) with (@nil element))
    | progress (change (elementsByTag ?t (Lit ?v)) with (@nil element))
    | progress (change (elementsByTag ?t (Text ?v)) with (@nil element))
    | case_decide; [discriminate|]
    | case_decide; [|congruence] ];
  rewrite ?app_nil_r; simpl app.

Lemma get_define {A} (k k' : string) (v : A) (o : list (string * A)) :
  get k' (define k v o) = if decide (k' = k) then Some v else get k' o.
Proof.
  induction o as [|[k0 v0] o IH]; simpl.
  - by destruct (decide (k' = k)).
  - destruct (decide (k = k0)) as [->|Hne]; simpl.
    + by destruct (decide (k' = k0)).
    + rewrite IH. destruct (decide (k' = k0)) as [->|]; [|done].
      by rewrite decide_False by done.
Qed.

Lemma define_keys {A} (k : string) (v : A) (o : list (string * A)) :
  (define k v o).*1 = if decide (k ∈ o.*1) then o.*1 else (o.*1 ++ [k])%list.
Proof.
  induction o as [|[k0 v0] o IH].
  - by destruct (decide (k ∈ _)) as [?%elem_of_nil|].
  - cbn [define]. destruct (decide (k = k0)) as [->|Hne]; rewrite !fmap_cons; cbn [fst].
    + destruct (decide (k0 ∈ k0 :: _)) as [|Hnin]; [done|]. destruct Hnin. left.
    + rewrite IH. destruct (decide (k ∈ o.*1)) as [Hin|Hnin].
      * destruct (decide (k ∈ k0 :: _)) as [|Hnin]; [done|]. destruct Hnin. by right.
      * by destruct (decide (k ∈ k0 :: _)) as [[?|?]%elem_of_cons|].
Qed.

Lemma define_NoDup {A} (k : string) (v : A) (o : list (string * A)) :
  NoDup o.*1 → NoDup (define k v o).*1.
Proof.
  intros Hnd. rewrite define_keys. destruct (decide (k ∈ o.*1)); [done|].
  apply NoDup_app. split; [done|]. split; [|apply NoDup_singleton].
  intros x Hx ->%list_elem_of_singleton. done.
Qed.

Lemma elem_of_get {A} (k : string) (v : A) (o : list (string * A)) :
  NoDup o.*1 → (k, v) ∈ o → get k o = Some v.
Proof.
  induction o as [|[k0 v0] o IH]; simpl.
  - by intros _ ?%elem_of_nil.
  - intros [Hk0 Hnd]%NoDup_cons [[= -> ->]|Hin]%elem_of_cons.
    + by rewrite decide_True.
    + rewrite decide_False; [by apply IH|].
      intros ->. apply Hk0. by apply (list_elem_of_fmap_2 fst _ (k0, v)).
Qed.

(** Enumeration reorders the properties and loses none. *)
Lemma ownEntries_Permutation {A} (o : list (string * A)) : ownEntries o ≡ₚ o.
Proof.
  unfold ownEntries. rewrite merge_sort_Permutation.
  induction o as [|kv o IH]; [done|].
  destruct (arrayIndex kv.1) as [n|] eqn:Hidx.
  - rewrite filter_cons_False by congruence.
    cbn [omap list_omap]. rewrite Hidx. cbn [fmap option_fmap option_map].
    rewrite fmap_cons. cbn [snd app]. by rewrite IH.
  - rewrite filter_cons_True by done.
    cbn [omap list_omap]. rewrite Hidx. cbn [fmap option_fmap option_map].
    by rewrite <- Permutation_middle, IH.
Qed.

(** The class names an object argument contributes: the keys that hold a
    truthy value. *)
Lemma classArgNames_obj (c : string) (o : list (string * option string)) :
  NoDup o.*1 →
  c ∈ classArgNames (ClassObj o) ↔ ∃ v, get c o = Some v ∧ truthy v = true.
Proof.
  intros Hnd. unfold classArgNames. rewrite list_elem_of_fmap. split.
  - intros ([k v] & -> & [Hv Hin]%list_elem_of_filter).
    rewrite ownEntries_Permutation in Hin.
    exists v. split; [by apply elem_of_get | done].
  - intros (v & Hget & Hv). exists (c, v). split; [done|].
    apply list_elem_of_filter. split; [done|].
    rewrite ownEntries_Permutation. by apply get_elem_of.
Qed.

(** No content alignment turns the alignment class into the background
    marker. *)
Lemma align_class_not_marker (contentAlign : option string) :
  "has-" +:+ toString contentAlign +:+ "-content" ≠ "has-background".
Proof.
  generalize (toString contentAlign) as x. intros x H. simpl in H.
  injection H as H.
  repeat (destruct x as [|? x]; simpl in H; [discriminate H|];
          first [discriminate H | injection H as _ H]).
Qed.

Lemma toString_eq (v : option string) (s : string) :
  toString v = s → s ≠ "undefined" → v = Some s.
Proof. destruct v; simpl; congruence. Qed.

(** Only the two arrow functions of [mediaTypeRenders] return an element;
    whatever else the lookup can find returns a plain value or fails. *)
Lemma call_inherited (k : string) (m : member) (r : element) :
  get k objectPrototype = Some m → call m = Returned r → ∃ v, r = Lit v.
Proof.
  intros Hget Hcall. apply get_elem_of in Hget.
  unfold objectPrototype in Hget.
  repeat match type of Hget with
         | _ ∈ _ :: _ => apply elem_of_cons in Hget as [Heq|Hget]
         end;
    try (by apply elem_of_nil in Hget);
    injection Heq as _ ->; simpl in Hcall;
    first [discriminate | injection Hcall as <-; eauto].
Qed.

Lemma mediaTypeRenders_own (p : Props.t) :
  mediaTypeRenders p =
    [("image", Arrow (Elem "img" [("src", ostr (Attributes.imgUrl (Props.attributes p)))] []));
     ("video", Arrow (Elem "video"
        [("controls", JBool true);
         ("src", ostr (Attributes.imgUrl (Props.attributes p)))] []))].
Proof. reflexivity. Qed.

Lemma saveMedia_image (p : Props.t) :
  Attributes.mediaType (Props.attributes p) = Some "image" →
  saveMedia p
  = Returned (Elem "img" [("src", ostr (Attributes.imgUrl (Props.attributes p)))] []).
Proof. unfold saveMedia. intros ->. reflexivity. Qed.

Lemma saveMedia_video (p : Props.t) :
  Attributes.mediaType (Props.attributes p) = Some "video" →
  saveMedia p
  = Returned (Elem "video"
      [("controls", JBool true);
       ("src", ostr (Attributes.imgUrl (Props.attributes p)))] []).
Proof. unfold saveMedia. intros ->. reflexivity. Qed.

Lemma saveMedia_absent (p : Props.t) :
  Attributes.mediaType (Props.attributes p) = None →
  saveMedia p = Returned (Lit JUndef).
Proof. unfold saveMedia. intros ->. reflexivity. Qed.

(** A [mediaType] that names neither renderer nor a property of
    [Object.prototype] reaches [noop]. *)
Lemma saveMedia_noop (p : Props.t) (kind : string) :
  Attributes.mediaType (Props.attributes p) = Some kind →
  kind ≠ "image" → kind ≠ "video" → get kind objectPrototype = None →
  saveMedia p = Returned (Lit JUndef).
Proof.
  unfold saveMedia, getProperty. intros -> Hi Hv Hproto.
  rewrite mediaTypeRenders_own. simpl.
  destruct (decide (kind = "image")); [done|].
  destruct (decide (kind = "video")); [done|].
  simpl in Hproto. by rewrite Hproto.
Qed.

(** Whatever [mediaType] is, if it is not "image" or "video" the media
    call does not return an element. *)
Lemma saveMedia_other (p : Props.t) (r : element) :
  Attributes.mediaType (Props.attributes p) ≠ Some "image" →
  Attributes.mediaType (Props.attributes p) ≠ Some "video" →
  saveMedia p = Returned r → ∃ v, r = Lit v.
Proof.
  unfold saveMedia, getProperty. intros Hi Hv.
  rewrite mediaTypeRenders_own.
  set (k := toString _). remember objectPrototype as proto eqn:Hproto. simpl.
  destruct (decide (k = "image")) as [Hk|_].
  { apply toString_eq in Hk; done. }
  destruct (decide (k = "video")) as [Hk|_].
  { apply toString_eq in Hk; done. }
  destruct (get k proto) as [m|] eqn:Hget; simpl.
  - subst proto. apply (call_inherited k m r Hget).
  - intros [= <-]. eauto.
Qed.

(** ** The serializer *)

Section Save.
Variable getColorClassName : string → option string → option string.

(** [save] puts the result of the media call, the rich text and the
    footer expression, in this order, under one [div] that carries the
    classes and the inline style. *)
Lemma save_returned (p : Props.t) (media : element) :
  saveMedia p = Returned media →
  save getColorClassName p = Returned
    (Elem "div"
       [("className", JStr (classnames (saveClassArgs getColorClassName p)));
        ("style", JObj (saveStyles getColorClassName p))]
       [media;
        Elem "RichText.Content"
          [("tagName", JStr "p");
           ("value", oarr (Attributes.content (Props.attributes p)))] [];
        if Attributes.extras (Props.attributes p) then saveExtras
        else Lit (JBool false)]).
Proof. unfold save. intros ->. reflexivity. Qed.

Lemma save_inv (p : Props.t) (out : element) :
  save getColorClassName p = Returned out →
  ∃ media, saveMedia p = Returned media ∧
    out = Elem "div"
       [("className", JStr (classnames (saveClassArgs getColorClassName p)));
        ("style", JObj (saveStyles getColorClassName p))]
       [media;
        Elem "RichText.Content"
          [("tagName", JStr "p");
           ("value", oarr (Attributes.content (Props.attributes p)))] [];
        if Attributes.extras (Props.attributes p) then saveExtras
        else Lit (JBool false)].
Proof.
  unfold save. destruct (saveMedia p) as [media|e]; simpl; [|discriminate].
  intros [= <-]. eauto.
Qed.

Lemma save_threw (p : Props.t) (e : error) :
  saveMedia p = Threw e → save getColorClassName p = Threw e.
Proof. unfold save. intros ->. reflexivity. Qed.
Lemma saveMedia_cases (p : Props.t) (r : element) :
  saveMedia p = Returned r →
  r = Elem "img" [("src", ostr (Attributes.imgUrl (Props.attributes p)))] [] ∨
  r = Elem "video" [("controls", JBool true);
                    ("src", ostr (Attributes.imgUrl (Props.attributes p)))] [] ∨
  ∃ v, r = Lit v.
Proof.
  intros Hr.
  destruct (decide (Attributes.mediaType (Props.attributes p) = Some "image")) as [Hi|Hi].
  { rewrite (saveMedia_image p Hi) in Hr. injection Hr as <-. by left. }
  destruct (decide (Attributes.mediaType (Props.attributes p) = Some "video")) as [Hv|Hv].
  { rewrite (saveMedia_video p Hv) in Hr. injection Hr as <-. right. by left. }
  right. right. by apply (saveMedia_other p r).
Qed.

(** X14. [save] fails exactly when [mediaType] is one of the [uncallable]
    names; for every other record it returns a tree. *)
Lemma save_throws_iff (p : Props.t) :
  (∃ e, save getColorClassName p = Threw e) ↔
  ∃ kind, Attributes.mediaType (Props.attributes p) = Some kind ∧ kind ∈ uncallable.
Proof.
  split.
  - intros [e He].
    destruct (saveMedia p) as [media|e'] eqn:Hmedia.
    { by rewrite (save_returned p media Hmedia) in He. }
    destruct (Attributes.mediaType (Props.attributes p)) as [kind|] eqn:Hkind;
      [|by rewrite (saveMedia_absent p Hkind) in Hmedia].
    exists kind. split; [done|].
    unfold saveMedia, getProperty in Hmedia.
    rewrite mediaTypeRenders_own, Hkind in Hmedia.
    change (toString (Some kind)) with kind in Hmedia.
    cbn [get] in Hmedia.
    destruct (decide (kind = "image")); [discriminate Hmedia|].
    destruct (decide (kind = "video")); [discriminate Hmedia|].
    unfold objectPrototype in Hmedia. cbn [get] in Hmedia.
    repeat (destruct (decide (kind = _)) as [->|_];
            [simpl in Hmedia; first [discriminate Hmedia | unfold uncallable; set_solver]|]).
    discriminate Hmedia.
  - intros (kind & Hkind & Hin). exists TypeError.
    apply save_threw. unfold saveMedia. rewrite Hkind.
    unfold uncallable in Hin.
    repeat (apply elem_of_cons in Hin as [->|Hin]; [reflexivity|]).
    by apply elem_of_nil in Hin.
Qed.

(** C2. With [mediaType] "image" and [imgUrl] set, the serialized tree has
    one [img] element, whose [src] is that URL, and no [video] element;
    with [mediaType] "video" it has one [video] element with that [src]
    and no [img] element. *)
Theorem save_selected_media (p : Props.t) (src : string) :
  Attributes.imgUrl (Props.attributes p) = Some src →
  (Attributes.mediaType (Props.attributes p) = Some "image" →
   ∃ out, save getColorClassName p = Returned out ∧
          elementsByTag "img" out = [Elem "img" [("src", JStr src)] []] ∧
          elementsByTag "video" out = []) ∧
  (Attributes.mediaType (Props.attributes p) = Some "video" →
   ∃ out, save getColorClassName p = Returned out ∧
          elementsByTag "video" out
            = [Elem "video" [("controls", JBool true); ("src", JStr src)] []] ∧
          elementsByTag "img" out = []).
Proof.
  intros Hsrc. split; intros Hkind.
  - rewrite (save_returned p _ (saveMedia_image p Hkind)), Hsrc.
    eexists. split; [reflexivity|].
    generalize (classnames (saveClassArgs getColorClassName p)) as classes.
    generalize (saveStyles getColorClassName p) as styles.
    intros. by destruct (Attributes.extras _).
  - rewrite (save_returned p _ (saveMedia_video p Hkind)), Hsrc.
    eexists. split; [reflexivity|].
    generalize (classnames (saveClassArgs getColorClassName p)) as classes.
    generalize (saveStyles getColorClassName p) as styles.
    intros. by destruct (Attributes.extras _).
Qed.

(** C3, at a [mediaType] that names a property every object literal
    inherits: the lookup in [mediaTypeRenders] finds the prototype object
    instead of falling through to [noop], and calling it fails. *)
Theorem save_inherited_key_throws :
  save getColorClassName (propsOf (mediaBlock (Some "__proto__") None))
  = Threw TypeError.
Proof. reflexivity. Qed.

(** C4. When the colour-class lookup yields a class for [backgroundColor],
    the inline style leaves [backgroundColor] unset, whatever
    [customBackgroundColor] holds; when it yields none, the inline style
    carries [customBackgroundColor].  This style object is the [style] of
    the serialized root. *)
Theorem save_style_background (p : Props.t) :
  (truthy (backgroundClass getColorClassName p) = true →
   get "backgroundColor" (saveStyles getColorClassName p) = Some JUndef) ∧
  (truthy (backgroundClass getColorClassName p) = false →
   get "backgroundColor" (saveStyles getColorClassName p)
   = Some (ostr (Attributes.customBackgroundColor (Props.attributes p)))) ∧
  (∀ out, save getColorClassName p = Returned out →
   prop "style" out = Some (JObj (saveStyles getColorClassName p))).
Proof.
  split; [|split].
  - intros H. unfold saveStyles. simpl. by rewrite H.
  - intros H. unfold saveStyles. simpl. by rewrite H.
  - intros out (media & _ & ->)%save_inv. reflexivity.
Qed.

(** C5. With [extras] true the serialized tree contains the footer, two
    paragraphs under one [div], as its last child; with [extras] false it
    contains neither the footer nor any paragraph element. *)
Theorem save_extras_footer (p : Props.t) (out : element) :
  save getColorClassName p = Returned out →
  (Attributes.extras (Props.attributes p) = true →
   childNodes out !! 2%nat = Some saveExtras ∧
   saveExtras ∈ descendants out ∧
   (tagOf <$> childNodes saveExtras) = ["p"; "p"]) ∧
  (Attributes.extras (Props.attributes p) = false →
   (saveExtras ∉ descendants out) ∧
   elementsByTag "p" out = [] ∧
   childNodes out !! 2%nat = Some (Lit (JBool false))).
Proof.
  intros (media & Hmedia & ->)%save_inv. split; intros ->.
  - split; [reflexivity|]. split; [|reflexivity].
    rewrite descendants_Elem. apply elem_of_cons. right.
    apply list_elem_of_bind. exists saveExtras.
    split; [apply descendants_self | set_solver].
  - generalize (classnames (saveClassArgs getColorClassName p)) as classes.
    generalize (saveStyles getColorClassName p) as styles. intros.
    apply saveMedia_cases in Hmedia as [->|[->|[v ->]]];
      (split; [|split; reflexivity]); simpl;
      rewrite ?elem_of_cons, elem_of_nil; unfold saveExtras;
      intros H; repeat destruct H as [H|H]; try discriminate H; done.
Qed.

(** C6. The serialized result is a function of the attribute record: two
    calls whose props carry the same attributes give the same result,
    whatever else the props hold. *)
Theorem save_attributes_only (p q : Props.t) :
  Props.attributes p = Props.attributes q →
  save getColorClassName p = save getColorClassName q.
Proof.
  intros H.
  unfold save, saveMedia, mediaTypeRenders, saveClassArgs, saveStyles, backgroundClass.
  by rewrite H.
Qed.

(** C7, at a record with [mediaType] "image" and no [imgUrl]: the
    serializer does not look at [imgUrl] and renders an [img] element
    without a source. *)
Theorem save_media_without_url :
  ∃ out, save getColorClassName (propsOf (mediaBlock (Some "image") None))
         = Returned out ∧
         elementsByTag "img" out = [Elem "img" [("src", JUndef)] []].
Proof. eexists. split; reflexivity. Qed.
End Save.

Lemma save_selected_media_witness :
  (∃ out, save slugClassName
            (propsOf (mediaBlock (Some "image") (Some "https://example.org/a.png")))
          = Returned out ∧
          elementsByTag "img" out
            = [Elem "img" [("src", JStr "https://example.org/a.png")] []] ∧
          elementsByTag "video" out = []) ∧
  (∃ out, save slugClassName
            (propsOf (mediaBlock (Some "video") (Some "https://example.org/a.mp4")))
          = Returned out ∧
          elementsByTag "video" out
            = [Elem "video" [("controls", JBool true);
                             ("src", JStr "https://example.org/a.mp4")] []] ∧
          elementsByTag "img" out = []).
Proof.
  split.
  - apply (proj1 (save_selected_media slugClassName
                    (propsOf (mediaBlock (Some "image") (Some "https://example.org/a.png")))
                    "https://example.org/a.png" eq_refl)).
    reflexivity.
  - apply (proj2 (save_selected_media slugClassName
                    (propsOf (mediaBlock (Some "video") (Some "https://example.org/a.mp4")))
                    "https://example.org/a.mp4" eq_refl)).
    reflexivity.
Defined.

Lemma save_style_background_witness :
  get "backgroundColor"
    (saveStyles slugClassName (propsOf (colouredBlock (Some "vivid-red") (Some "#ff0000"))))
  = Some JUndef ∧
  get "backgroundColor"
    (saveStyles slugClassName (propsOf (colouredBlock None (Some "#ff0000"))))
  = Some (JStr "#ff0000") ∧
  ∃ out, save slugClassName (propsOf (colouredBlock None (Some "#ff0000"))) = Returned out ∧
         prop "style" out
         = Some (JObj [("backgroundColor", JStr "#ff0000"); ("textAlign", JUndef)]).
Proof.
  split; [|split].
  - apply (proj1 (save_style_background slugClassName
                    (propsOf (colouredBlock (Some "vivid-red") (Some "#ff0000"))))).
    reflexivity.
  - apply (proj1 (proj2 (save_style_background slugClassName
                           (propsOf (colouredBlock None (Some "#ff0000")))))).
    reflexivity.
  - eexists. split; [reflexivity|].
    apply (proj2 (proj2 (save_style_background slugClassName
                           (propsOf (colouredBlock None (Some "#ff0000")))))).
    reflexivity.
Defined.

Lemma save_extras_footer_witness :
  (∃ out, save slugClassName (propsOf (mediaBlock None None)) = Returned out ∧
          saveExtras ∈ descendants out) ∧
  (∃ out, save slugClassName (propsOf (colouredBlock None None)) = Returned out ∧
          saveExtras ∉ descendants out).
Proof.
  split.
  - eexists. split; [reflexivity|].
    apply (proj1 (save_extras_footer slugClassName (propsOf (mediaBlock None None))
                    _ eq_refl)).
    reflexivity.
  - eexists. split; [reflexivity|].
    apply (proj2 (save_extras_footer slugClassName (propsOf (colouredBlock None None))
                    _ eq_refl)).
    reflexivity.
Defined.

Lemma save_attributes_only_witness :
  save slugClassName (propsOf (mediaBlock (Some "image") (Some "https://example.org/a.png")))
  = save slugClassName
      {| Props.isSelected := true;
         Props.className := Some "wp-block-cgb-block-cgb-hello-gutenberg";
         Props.attributes := mediaBlock (Some "image") (Some "https://example.org/a.png");
         Props.backgroundColor := {| color := Some "#ff0000"; class := None |} |}.
Proof.
  apply (save_attributes_only slugClassName). reflexivity.
Defined.

(** ** The editable render function *)

Section Edit.
Variable __ : string → string.

(** What the editor shows of the block: the media button stands where the
    picker is, everything else is as [edit] returns it. *)
Lemma display_edit (p : Props.t) :
  display (edit __ p)
  = Elem "div"
      [("className", JStr (classnames (editClassArgs p)));
       ("style", JObj (editStyles p))]
      [if Props.isSelected p then editControls __ p else Lit (JBool false);
       Elem "MediaUploadCheck" []
         [renderMedia (Attributes.imgUrl (Props.attributes p))
                      (Attributes.mediaType (Props.attributes p)) Open];
       Elem "RichText"
         [("tagName", JStr "p");
          ("className", ostr (Props.className p));
          ("onChange", JFun SetContent);
          ("value", oarr (Attributes.content (Props.attributes p)))]
         [];
       if Attributes.extras (Props.attributes p) then editExtras
       else Lit (JBool false)].
Proof.
  unfold edit.
  generalize (classnames (editClassArgs p)) as classes.
  generalize (editStyles p) as styles. intros.
  by destruct (Props.isSelected p), (Attributes.extras (Props.attributes p)).
Qed.

(** Outside the media button the editor's tree holds no media element. *)
Lemma edit_media_elements (p : Props.t) (tag : string) :
  tag = "img" ∨ tag = "video" →
  elementsByTag tag (display (edit __ p))
  = elementsByTag tag
      (renderMedia (Attributes.imgUrl (Props.attributes p))
                   (Attributes.mediaType (Props.attributes p)) Open).
Proof.
  rewrite display_edit.
  generalize (classnames (editClassArgs p)) as classes.
  generalize (editStyles p) as styles.
  generalize (renderMedia (Attributes.imgUrl (Props.attributes p))
                          (Attributes.mediaType (Props.attributes p)) Open) as button.
  intros button styles classes [-> | ->];
    destruct (Props.isSelected p), (Attributes.extras (Props.attributes p));
    unfold editControls, editExtras; by_tags; reflexivity.
Qed.
End Edit.

(** ** The editor and the serializer side by side *)

Section EditAndSave.
Variable getColorClassName : string → option string → option string.
Variable __ : string → string.

(** With no [imgUrl] the editor shows the placeholder icon and no media
    element, whatever [mediaType] holds. *)
Lemma edit_placeholder_without_url (p : Props.t) :
  Attributes.imgUrl (Props.attributes p) = None →
  elementsByTag "img" (display (edit __ p)) = [] ∧
  elementsByTag "video" (display (edit __ p)) = [] ∧
  elementsByTag "Dashicon" (renderMedia None (Attributes.mediaType (Props.attributes p)) Open)
  = [Elem "Dashicon" [("icon", JStr "format-image")] []].
Proof.
  intros Hurl. rewrite !edit_media_elements by auto. rewrite Hurl.
  unfold renderMedia. simpl negb. cbv iota. repeat split; by_tags; reflexivity.
Qed.

(** C10. In the editor, once [imgUrl] is set, every [mediaType] other than
    "image", absent and unrecognized values included, shows one [video]
    element with that source and no [img]; the serializer, for the same
    record, renders no media element unless [mediaType] is "video". *)
Theorem edit_media_defaults_to_video (p : Props.t) :
  truthy (Attributes.imgUrl (Props.attributes p)) = true →
  Attributes.mediaType (Props.attributes p) ≠ Some "image" →
  elementsByTag "video" (display (edit __ p))
  = [Elem "video" [("controls", JBool true);
                   ("src", ostr (Attributes.imgUrl (Props.attributes p)))] []] ∧
  elementsByTag "img" (display (edit __ p)) = [] ∧
  (Attributes.mediaType (Props.attributes p) ≠ Some "video" →
   ∀ out, save getColorClassName p = Returned out →
          elementsByTag "video" out = [] ∧ elementsByTag "img" out = []).
Proof.
  intros Hurl Hkind. rewrite !edit_media_elements by auto.
  unfold renderMedia, getMedia. rewrite Hurl. simpl negb. cbv iota.
  destruct (decide (_ = Some "image")); [done|].
  split; [by_tags; reflexivity|]. split; [by_tags; reflexivity|].
  intros Hvideo out (media & Hmedia & ->)%save_inv.
  apply saveMedia_other in Hmedia as [v ->]; [|done..].
  generalize (classnames (saveClassArgs getColorClassName p)) as classes.
  generalize (saveStyles getColorClassName p) as styles. intros.
  destruct (Attributes.extras _); unfold saveExtras; split; by_tags; reflexivity.
Qed.

End EditAndSave.

(** C8, as stated, fails: for a block with a custom background colour the
    serializer's classes hold [has-background] and the editor's hold
    nothing. *)
Lemma save_classes_differ_from_edit :
  class (Props.backgroundColor customRed) = backgroundClass slugClassName customRed ∧
  classList (saveClassArgs slugClassName customRed) = ["has-background"] ∧
  classList (editClassArgs customRed) = [] ∧
  classSet (saveClassArgs slugClassName customRed) ≠ classSet (editClassArgs customRed).
Proof.
  assert (classList (saveClassArgs slugClassName customRed) = ["has-background"]) as Hs
    by (vm_compute; reflexivity).
  assert (classList (editClassArgs customRed) = []) as He by (vm_compute; reflexivity).
  repeat split; [done..|].
  unfold classSet. rewrite Hs, He. set_solver.
Qed.

Lemma edit_media_defaults_to_video_witness :
  elementsByTag "video"
    (display (edit sameLabel
       (propsOf (mediaBlock (Some "audio") (Some "https://example.org/a.mp3")))))
  = [Elem "video" [("controls", JBool true);
                   ("src", JStr "https://example.org/a.mp3")] []] ∧
  elementsByTag "img"
    (display (edit sameLabel
       (propsOf (mediaBlock (Some "audio") (Some "https://example.org/a.mp3")))))
  = [] ∧
  ∃ out, save slugClassName
           (propsOf (mediaBlock (Some "audio") (Some "https://example.org/a.mp3")))
         = Returned out ∧
         elementsByTag "video" out = [] ∧ elementsByTag "img" out = [].
Proof.
  destruct (edit_media_defaults_to_video slugClassName sameLabel
              (propsOf (mediaBlock (Some "audio") (Some "https://example.org/a.mp3"))))
    as (Hvideo & Himg & Hsave).
  - reflexivity.
  - discriminate.
  - split; [exact Hvideo|]. split; [exact Himg|].
    eexists. split; [reflexivity|]. apply Hsave; [discriminate | reflexivity].
Defined.

(** ** Worked examples *)

Example classnames_order :
  classnames [ClassStr (Some "wp-block"); ClassStr None;
              ClassObj (literal [("b", Some "x"); ("10", Some "y"); ("a", Some "");
                                 ("9", Some "z"); ("b", Some "w")])]
  = "wp-block 9 10 b".
Proof. vm_compute. reflexivity. Qed.

Example themedRed_classes :
  classnames (saveClassArgs slugClassName themedRed)
  = "has-background has-vivid-red-background-color has-center-content" ∧
  classnames (editClassArgs themedRed)
  = "wp-block-cgb-block-cgb-hello-gutenberg has-vivid-red-background-color has-center-content".
Proof. split; vm_compute; reflexivity. Qed.

Example save_unknown_mediaType :
  save slugClassName (propsOf (mediaBlock (Some "audio") None))
  = Returned
      (Elem "div" [("className", JStr ""); ("style", JObj [("backgroundColor", JUndef);
                                                            ("textAlign", JUndef)])]
         [Lit JUndef;
          Elem "RichText.Content" [("tagName", JStr "p"); ("value", JUndef)] [];
          saveExtras]).
Proof. vm_compute. reflexivity. Qed.

Example save_inherited_mediaTypes :
  save slugClassName (propsOf (mediaBlock (Some "valueOf") None)) = Threw TypeError ∧
  save slugClassName (propsOf (mediaBlock (Some "hasOwnProperty") None)) = Threw TypeError ∧
  saveMedia (propsOf (mediaBlock (Some "toString") None))
  = Returned (Lit (JStr "[object Undefined]")) ∧
  saveMedia (propsOf (mediaBlock (Some "constructor") None)) = Returned (Lit (JObj [])).
Proof. repeat split; vm_compute; reflexivity. Qed.

(** * Further properties of the block *)

(** ** Handlers *)

(** X1. The extras toggle flips [extras] and changes nothing else; toggling
    again after the next render restores the record; the same closure
    called a second time, before a new render, changes nothing more. *)
Theorem toggleExtras_flip (a : Attributes.t) :
  let a' := dispatch (toggleExtras (Attributes.extras a)) a in
  Attributes.extras a' = negb (Attributes.extras a) ∧
  (Attributes.content a' = Attributes.content a ∧
   Attributes.imgId a' = Attributes.imgId a ∧
   Attributes.imgUrl a' = Attributes.imgUrl a ∧
   Attributes.mediaType a' = Attributes.mediaType a ∧
   Attributes.backgroundColor a' = Attributes.backgroundColor a ∧
   Attributes.customBackgroundColor a' = Attributes.customBackgroundColor a ∧
   Attributes.contentAlign a' = Attributes.contentAlign a) ∧
  dispatch (toggleExtras (Attributes.extras a')) a' = a ∧
  dispatch (toggleExtras (Attributes.extras a)) a' = a'.
Proof.
  destruct a as [content imgId imgUrl mediaType bg custom extras align].
  simpl. rewrite negb_involutive. by destruct extras.
Qed.

(** X2. The last media selection wins: a second selection replaces what
    the first one set, and a selection without [url] or [id] clears the
    stored value instead of keeping the previous one. *)
Theorem onUploadImage_last_wins (first second : Media.t) (a : Attributes.t) :
  dispatch (onUploadImage second) (dispatch (onUploadImage first) a)
  = dispatch (onUploadImage second) a ∧
  (Media.url second = None →
   Attributes.imgUrl (dispatch (onUploadImage second) a) = None) ∧
  (Media.id second = None →
   Attributes.imgId (dispatch (onUploadImage second) a) = None) ∧
  (Media.media_type second = None → Media.type second = None →
   Attributes.mediaType (dispatch (onUploadImage second) a) = None).
Proof.
  destruct a as [content imgId imgUrl mediaType bg custom extras align].
  unfold onUploadImage, dispatch. simpl.
  split; [reflexivity|]. split; [done|]. split; [done|].
  by intros -> ->.
Qed.

Lemma onUploadImage_last_wins_witness :
  Attributes.imgUrl
    (dispatch (onUploadImage {| Media.media_type := None; Media.type := None;
                                Media.url := None; Media.id := None |})
       (dispatch (onUploadImage (uploaded (Some "image") None)) Attributes.initial))
  = None ∧
  Attributes.imgId
    (dispatch (onUploadImage {| Media.media_type := None; Media.type := None;
                                Media.url := None; Media.id := None |})
       (dispatch (onUploadImage (uploaded (Some "image") None)) Attributes.initial))
  = None ∧
  Attributes.mediaType
    (dispatch (onUploadImage {| Media.media_type := None; Media.type := None;
                                Media.url := None; Media.id := None |})
       (dispatch (onUploadImage (uploaded (Some "image") None)) Attributes.initial))
  = None.
Proof.
  pose proof (onUploadImage_last_wins
                (uploaded (Some "image") None)
                {| Media.media_type := None; Media.type := None;
                   Media.url := None; Media.id := None |}
                (dispatch (onUploadImage (uploaded (Some "image") None))
                   Attributes.initial)) as (_ & Hurl & Hid & Hkind).
  split; [apply Hurl; reflexivity|].
  split; [apply Hid; reflexivity | apply Hkind; reflexivity].
Defined.

(** X3. The handlers write disjoint attributes, so a media selection, an
    alignment change, a content change and the extras toggle give the same
    record in either order. *)
Theorem handlers_commute (media : Media.t) (nextContentAlign : option string)
    (content : option (list jsval)) (extras : bool) (a : Attributes.t) :
  dispatch (setContentAlign nextContentAlign) (dispatch (onUploadImage media) a)
  = dispatch (onUploadImage media) (dispatch (setContentAlign nextContentAlign) a) ∧
  dispatch (setContent content) (dispatch (onUploadImage media) a)
  = dispatch (onUploadImage media) (dispatch (setContent content) a) ∧
  dispatch (toggleExtras extras) (dispatch (onUploadImage media) a)
  = dispatch (onUploadImage media) (dispatch (toggleExtras extras) a) ∧
  dispatch (toggleExtras extras) (dispatch (setContentAlign nextContentAlign) a)
  = dispatch (setContentAlign nextContentAlign) (dispatch (toggleExtras extras) a) ∧
  dispatch (setContent content) (dispatch (setContentAlign nextContentAlign) a)
  = dispatch (setContentAlign nextContentAlign) (dispatch (setContent content) a) ∧
  dispatch (setContent content) (dispatch (toggleExtras extras) a)
  = dispatch (toggleExtras extras) (dispatch (setContent content) a).
Proof. repeat split. Qed.

(** ** The editor's tree *)

Section EditTree.
Variable __ : string → string.

(** X4. The settings panel and the alignment toolbar are in the editor's
    tree only while the block is selected: unselected, the tree holds none
    of the control elements; selected, it holds one toggle, checked as
    [extras] is and carrying the toggle closure for that value, and one
    alignment toolbar showing [contentAlign]. *)
Theorem edit_controls_when_selected (p : Props.t) :
  (Props.isSelected p = false →
   ∀ tag, tag ∈ controlTags → elementsByTag tag (edit __ p) = []) ∧
  (Props.isSelected p = true →
   elementsByTag "ToggleControl" (edit __ p)
   = [Elem "ToggleControl"
        [("label", JStr (__ "View Extras"));
         ("checked", JBool (Attributes.extras (Props.attributes p)));
         ("onChange", JFun (ToggleExtras (Attributes.extras (Props.attributes p))));
         ("help", JStr (if Attributes.extras (Props.attributes p)
                        then __ "Showing the extras."
                        else __ "Toggle to show the extras."))] []] ∧
   elementsByTag "AlignmentToolbar" (edit __ p)
   = [Elem "AlignmentToolbar"
        [("value", ostr (Attributes.contentAlign (Props.attributes p)));
         ("onChange", JFun SetContentAlign)] []]).
Proof.
  unfold edit.
  generalize (classnames (editClassArgs p)) as classes.
  generalize (editStyles p) as styles. intros styles classes.
  split; intros ->.
  - intros tag Htag. unfold controlTags in Htag.
    repeat (apply elem_of_cons in Htag as [->|Htag];
            [destruct (Attributes.extras _); unfold editExtras; by_tags; reflexivity|]).
    by apply elem_of_nil in Htag.
  - unfold editControls.
    split; destruct (Attributes.extras _); unfold editExtras; by_tags; reflexivity.
Qed.

(** X5. Selecting the block adds the controls and changes nothing else:
    the root's class and style and the children after the controls (media
    picker, rich text, footer) are those of the unselected block. *)
Theorem edit_selection_adds_controls_only (p q : Props.t) :
  Props.className p = Props.className q →
  Props.attributes p = Props.attributes q →
  Props.backgroundColor p = Props.backgroundColor q →
  prop "className" (edit __ p) = prop "className" (edit __ q) ∧
  prop "style" (edit __ p) = prop "style" (edit __ q) ∧
  drop 1 (childNodes (edit __ p)) = drop 1 (childNodes (edit __ q)).
Proof.
  intros Hname Hattrs Hcolor.
  unfold edit, editClassArgs, editStyles. simpl.
  by rewrite Hname, Hattrs, Hcolor.
Qed.

(** X6. With [extras] true the editor's tree ends with its own footer, two
    paragraphs whose text is not the serialized footer's; with [extras]
    false the last child is the value false and the tree has no
    paragraph element. *)
Theorem edit_extras_footer (p : Props.t) :
  (Attributes.extras (Props.attributes p) = true →
   childNodes (edit __ p) !! 3%nat = Some editExtras ∧
   elementsByTag "p" (edit __ p) = childNodes editExtras ∧
   (tagOf <$> childNodes editExtras) = ["p"; "p"] ∧
   editExtras ≠ saveExtras) ∧
  (Attributes.extras (Props.attributes p) = false →
   childNodes (edit __ p) !! 3%nat = Some (Lit (JBool false)) ∧
   elementsByTag "p" (edit __ p) = []).
Proof.
  unfold edit.
  generalize (classnames (editClassArgs p)) as classes.
  generalize (editStyles p) as styles. intros styles classes.
  split; intros ->; (split; [reflexivity|]).
  - split; [|split; [reflexivity | discriminate]].
    destruct (Props.isSelected p); unfold editControls, editExtras;
      by_tags; reflexivity.
  - destruct (Props.isSelected p); unfold editControls; by_tags; reflexivity.
Qed.

(** The media button is the only place of the editor's tree where a
    placeholder icon can be. *)
Lemma edit_placeholder_elements (p : Props.t) :
  elementsByTag "Dashicon" (display (edit __ p))
  = elementsByTag "Dashicon"
      (renderMedia (Attributes.imgUrl (Props.attributes p))
                   (Attributes.mediaType (Props.attributes p)) Open).
Proof.
  rewrite display_edit.
  generalize (classnames (editClassArgs p)) as classes.
  generalize (editStyles p) as styles.
  generalize (renderMedia (Attributes.imgUrl (Props.attributes p))
                          (Attributes.mediaType (Props.attributes p)) Open) as button.
  intros button styles classes.
  destruct (Props.isSelected p), (Attributes.extras (Props.attributes p));
    unfold editControls, editExtras; by_tags; reflexivity.
Qed.

(** X7. The media button shows one thing: the placeholder icon and no
    media element while [imgUrl] is absent or empty; otherwise no icon and
    one media element, [getMedia]'s. *)
Theorem edit_button_shows_one (p : Props.t) :
  (truthy (Attributes.imgUrl (Props.attributes p)) = false →
   elementsByTag "Dashicon" (display (edit __ p))
   = [Elem "Dashicon" [("icon", JStr "format-image")] []] ∧
   mediaElements (display (edit __ p)) = []) ∧
  (truthy (Attributes.imgUrl (Props.attributes p)) = true →
   elementsByTag "Dashicon" (display (edit __ p)) = [] ∧
   mediaElements (display (edit __ p))
   = [getMedia (Attributes.imgUrl (Props.attributes p))
               (Attributes.mediaType (Props.attributes p))]).
Proof.
  unfold mediaElements.
  rewrite edit_placeholder_elements, !(edit_media_elements __) by auto.
  unfold renderMedia, getMedia.
  split; intros ->; simpl negb; cbv iota.
  - split; by_tags; reflexivity.
  - destruct (decide (_ = Some "image")); split; by_tags; reflexivity.
Qed.
End EditTree.

Lemma edit_controls_when_selected_witness :
  elementsByTag "InspectorControls" (edit sameLabel customRed) = [] ∧
  elementsByTag "AlignmentToolbar" (edit sameLabel themedRed)
  = [Elem "AlignmentToolbar"
       [("value", JStr "center"); ("onChange", JFun SetContentAlign)] []].
Proof.
  split.
  - apply (proj1 (edit_controls_when_selected sameLabel customRed)); [reflexivity|].
    unfold controlTags. set_solver.
  - apply (proj2 (edit_controls_when_selected sameLabel themedRed)). reflexivity.
Defined.

Lemma edit_selection_adds_controls_only_witness :
  drop 1 (childNodes (edit sameLabel themedRed))
  = drop 1 (childNodes (edit sameLabel
      {| Props.isSelected := false;
         Props.className := Props.className themedRed;
         Props.attributes := Props.attributes themedRed;
         Props.backgroundColor := Props.backgroundColor themedRed |})).
Proof.
  apply (edit_selection_adds_controls_only sameLabel themedRed); reflexivity.
Defined.

Lemma edit_extras_footer_witness :
  childNodes (edit sameLabel themedRed) !! 3%nat = Some editExtras ∧
  elementsByTag "p" (edit sameLabel customRed) = [].
Proof.
  split.
  - apply (proj1 (edit_extras_footer sameLabel themedRed)). reflexivity.
  - apply (proj2 (edit_extras_footer sameLabel customRed)). reflexivity.
Defined.

Lemma edit_button_shows_one_witness :
  mediaElements (display (edit sameLabel (propsOf (mediaBlock (Some "image") (Some "")))))
  = [] ∧
  mediaElements
    (display (edit sameLabel
       (propsOf (mediaBlock (Some "image") (Some "https://example.org/a.png")))))
  = [Elem "img" [("src", JStr "https://example.org/a.png")] []].
Proof.
  split.
  - apply (proj1 (edit_button_shows_one sameLabel
                    (propsOf (mediaBlock (Some "image") (Some ""))))).
    reflexivity.
  - apply (proj2 (edit_button_shows_one sameLabel
                    (propsOf (mediaBlock (Some "image")
                                (Some "https://example.org/a.png"))))).
    reflexivity.
Defined.

(** ** Class names and inline styles *)

Section Classes.
Variable getColorClassName : string → option string → option string.

(** A name is among the serializer's classes when the last entry of the
    object literal under that name holds a truthy value. *)
Lemma saveClassList_elem (p : Props.t) (c : string) :
  c ∈ classList (saveClassArgs getColorClassName p) ↔
  truthy
    (if decide (c = "has-" +:+ toString (Attributes.contentAlign (Props.attributes p))
                    +:+ "-content")
     then Attributes.contentAlign (Props.attributes p)
     else if decide (c = toString (backgroundClass getColorClassName p))
     then backgroundClass getColorClassName p
     else if decide (c = "has-background")
     then or_else (Attributes.backgroundColor (Props.attributes p))
                  (Attributes.customBackgroundColor (Props.attributes p))
     else None) = true.
Proof.
  unfold classList, saveClassArgs.
  rewrite bind_cons.
  change (@nil classArg ≫= classArgNames) with (@nil string).
  rewrite app_nil_r.
  rewrite classArgNames_obj by (repeat apply define_NoDup; apply NoDup_nil_2).
  unfold literal. cbn [fold_left fst snd]. rewrite !get_define. cbn [get].
  repeat destruct (decide _); (split; [by intros (v & [= <-] & Hv) | eauto]);
    try (by intros (v & [=] & _)); discriminate.
Qed.

Lemma editObjectNames_elem (p : Props.t) (c : string) :
  c ∈ classArgNames
        (ClassObj (literal
           [(toString (class (Props.backgroundColor p)), class (Props.backgroundColor p));
            ("has-" +:+ toString (Attributes.contentAlign (Props.attributes p))
               +:+ "-content",
             Attributes.contentAlign (Props.attributes p))])) ↔
  truthy
    (if decide (c = "has-" +:+ toString (Attributes.contentAlign (Props.attributes p))
                    +:+ "-content")
     then Attributes.contentAlign (Props.attributes p)
     else if decide (c = toString (class (Props.backgroundColor p)))
     then class (Props.backgroundColor p)
     else None) = true.
Proof.
  rewrite classArgNames_obj by (repeat apply define_NoDup; apply NoDup_nil_2).
  unfold literal. cbn [fold_left fst snd]. rewrite !get_define. cbn [get].
  repeat destruct (decide _); (split; [by intros (v & [= <-] & Hv) | eauto]);
    try (by intros (v & [=] & _)); discriminate.
Qed.

(** X8. The serializer marks the block with [has-background] exactly when
    [backgroundColor] or [customBackgroundColor] is set (the colour lookup
    not itself answering with that name). *)
Theorem save_has_background (p : Props.t) :
  backgroundClass getColorClassName p ≠ Some "has-background" →
  "has-background" ∈ classSet (saveClassArgs getColorClassName p) ↔
  truthy (or_else (Attributes.backgroundColor (Props.attributes p))
                  (Attributes.customBackgroundColor (Props.attributes p))) = true.
Proof.
  intros Hclass. unfold classSet.
  rewrite elem_of_list_to_set, saveClassList_elem.
  pose proof (align_class_not_marker (Attributes.contentAlign (Props.attributes p))).
  rewrite decide_False by done.
  rewrite decide_False.
  - by rewrite decide_True.
  - intros Heq. symmetry in Heq. by apply toString_eq in Heq.
Qed.

(** X9. The alignment class [has-<contentAlign>-content] is among the
    serializer's classes exactly when [contentAlign] is set, and then among
    the editor's too; both inline styles carry [contentAlign] as
    [textAlign], set or not. *)
Theorem align_class_and_style (p : Props.t) :
  ("has-" +:+ toString (Attributes.contentAlign (Props.attributes p)) +:+ "-content"
     ∈ classSet (saveClassArgs getColorClassName p) ↔
   truthy (Attributes.contentAlign (Props.attributes p)) = true) ∧
  (truthy (Attributes.contentAlign (Props.attributes p)) = true →
   "has-" +:+ toString (Attributes.contentAlign (Props.attributes p)) +:+ "-content"
     ∈ classSet (editClassArgs p)) ∧
  get "textAlign" (saveStyles getColorClassName p)
  = Some (ostr (Attributes.contentAlign (Props.attributes p))) ∧
  get "textAlign" (editStyles p)
  = Some (ostr (Attributes.contentAlign (Props.attributes p))).
Proof.
  split; [|split; [|split; reflexivity]].
  - unfold classSet. rewrite elem_of_list_to_set, saveClassList_elem.
    by rewrite decide_True.
  - intros Halign. unfold classSet, classList, editClassArgs.
    rewrite elem_of_list_to_set, !bind_cons, !elem_of_app. right. left.
    apply editObjectNames_elem. by rewrite decide_True.
Qed.

(** X10. With no colour and no alignment the serializer's class attribute
    is the empty string, and the editor's is the class name the host
    passed, unchanged. *)
Theorem classes_when_unstyled (p : Props.t) :
  truthy (Attributes.contentAlign (Props.attributes p)) = false →
  (truthy (or_else (Attributes.backgroundColor (Props.attributes p))
                   (Attributes.customBackgroundColor (Props.attributes p))) = false →
   truthy (backgroundClass getColorClassName p) = false →
   classnames (saveClassArgs getColorClassName p) = "") ∧
  (truthy (class (Props.backgroundColor p)) = false →
   classnames (editClassArgs p)
   = if truthy (Props.className p) then toString (Props.className p) else "").
Proof.
  intros Halign. split.
  - intros Hmark Hclass. unfold classnames.
    rewrite (elem_of_nil_inv (classList (saveClassArgs getColorClassName p)));
      [reflexivity|].
    intros c. rewrite saveClassList_elem.
    repeat destruct (decide _); first [congruence | discriminate].
  - intros Hclass. unfold classnames, classList, editClassArgs.
    rewrite !bind_cons.
    change (@nil classArg ≫= classArgNames) with (@nil string).
    rewrite app_nil_r.
    rewrite (elem_of_nil_inv (classArgNames (ClassObj _))).
    + rewrite app_nil_r. unfold classArgNames.
      by destruct (truthy (Props.className p)).
    + intros c. rewrite editObjectNames_elem.
      repeat destruct (decide _); first [congruence | discriminate].
Qed.

(** X11. When no colour class applies and the editor's colour is the
    custom colour, the editor and the serializer build the same inline
    style; when a colour class applies, the serializer leaves the colour
    to the class while the editor still writes the colour it was handed. *)
Theorem styles_edit_vs_save (p : Props.t) :
  (truthy (backgroundClass getColorClassName p) = false →
   color (Props.backgroundColor p)
   = Attributes.customBackgroundColor (Props.attributes p) →
   editStyles p = saveStyles getColorClassName p) ∧
  (truthy (backgroundClass getColorClassName p) = true →
   ∀ c, color (Props.backgroundColor p) = Some c →
   get "backgroundColor" (editStyles p) = Some (JStr c) ∧
   get "backgroundColor" (saveStyles getColorClassName p) = Some JUndef).
Proof.
  unfold editStyles, saveStyles. split.
  - by intros -> ->.
  - by intros -> c ->.
Qed.
End Classes.

Lemma save_has_background_witness :
  "has-background"
    ∈ classSet (saveClassArgs slugClassName (propsOf (colouredBlock None (Some "#ff0000")))).
Proof.
  apply (save_has_background slugClassName (propsOf (colouredBlock None (Some "#ff0000")))).
  - discriminate.
  - reflexivity.
Defined.

Lemma align_class_and_style_witness :
  "has-center-content" ∈ classSet (saveClassArgs slugClassName themedRed) ∧
  "has-center-content" ∈ classSet (editClassArgs themedRed).
Proof.
  split.
  - apply (proj1 (align_class_and_style slugClassName themedRed)). reflexivity.
  - apply (proj1 (proj2 (align_class_and_style slugClassName themedRed))). reflexivity.
Defined.

Lemma classes_when_unstyled_witness :
  classnames (saveClassArgs slugClassName (propsOf (mediaBlock None None))) = "" ∧
  classnames
    (editClassArgs
       {| Props.isSelected := false;
          Props.className := Some "wp-block-cgb-block-cgb-hello-gutenberg";
          Props.attributes := mediaBlock None None;
          Props.backgroundColor := noColor |})
  = "wp-block-cgb-block-cgb-hello-gutenberg".
Proof.
  split.
  - apply (proj1 (classes_when_unstyled slugClassName (propsOf (mediaBlock None None))
                    eq_refl)); reflexivity.
  - apply (proj2 (classes_when_unstyled slugClassName
                    {| Props.isSelected := false;
                       Props.className := Some "wp-block-cgb-block-cgb-hello-gutenberg";
                       Props.attributes := mediaBlock None None;
                       Props.backgroundColor := noColor |} eq_refl)).
    reflexivity.
Defined.

Lemma styles_edit_vs_save_witness :
  editStyles customRed = saveStyles slugClassName customRed ∧
  get "backgroundColor" (editStyles themedRed) = Some (JStr "#cf2e2e") ∧
  get "backgroundColor" (saveStyles slugClassName themedRed) = Some JUndef.
Proof.
  split.
  - apply (proj1 (styles_edit_vs_save slugClassName customRed)); reflexivity.
  - apply (proj2 (styles_edit_vs_save slugClassName themedRed)); reflexivity.
Defined.

(** ** From a control to the next render *)

Section NextRender.
Variable getColorClassName : string → option string → option string.
Variable __ : string → string.

(** For a record with a media URL and a [mediaType] that is "image" or
    "video", the editor and the serializer render the same media element. *)
Lemma media_agree (p : Props.t) :
  truthy (Attributes.imgUrl (Props.attributes p)) = true →
  Attributes.mediaType (Props.attributes p) = Some "image" ∨
  Attributes.mediaType (Props.attributes p) = Some "video" →
  ∃ out, save getColorClassName p = Returned out ∧
         mediaElements out
         = [getMedia (Attributes.imgUrl (Props.attributes p))
                     (Attributes.mediaType (Props.attributes p))] ∧
         mediaElements (display (edit __ p))
         = [getMedia (Attributes.imgUrl (Props.attributes p))
                     (Attributes.mediaType (Props.attributes p))].
Proof.
  intros Hurl Hkind. unfold mediaElements.
  rewrite !(edit_media_elements __) by auto.
  unfold renderMedia. rewrite Hurl. simpl negb. cbv iota.
  destruct Hkind as [Hkind|Hkind].
  - rewrite (save_returned getColorClassName p _ (saveMedia_image p Hkind)).
    eexists. split; [reflexivity|].
    generalize (classnames (saveClassArgs getColorClassName p)) as classes.
    generalize (saveStyles getColorClassName p) as styles. intros.
    unfold getMedia. rewrite Hkind.
    destruct (Attributes.extras _); unfold saveExtras; split; by_tags; reflexivity.
  - rewrite (save_returned getColorClassName p _ (saveMedia_video p Hkind)).
    eexists. split; [reflexivity|].
    generalize (classnames (saveClassArgs getColorClassName p)) as classes.
    generalize (saveStyles getColorClassName p) as styles. intros.
    unfold getMedia. rewrite Hkind.
    destruct (Attributes.extras _); unfold saveExtras; split; by_tags; reflexivity.
Qed.

(** X12. After a media selection that has a URL and comes from an upload
    (a [media_type]) or from the library with [type] "image" or "video",
    the next render of the editor and the serializer show the same single
    media element, whose source is the selection's URL. *)
Theorem upload_then_render (media : Media.t) (p : Props.t) :
  truthy (Media.url media) = true →
  truthy (Media.media_type media) = true ∨
    Media.type media = Some "image" ∨ Media.type media = Some "video" →
  let p' := rerender p (dispatch (onUploadImage media) (Props.attributes p)) in
  ∃ out shown,
    save getColorClassName p' = Returned out ∧
    mediaElements out = [shown] ∧
    mediaElements (display (edit __ p')) = [shown] ∧
    prop "src" shown = Some (ostr (Media.url media)).
Proof.
  intros Hurl Hkind p'.
  assert (Attributes.imgUrl (Props.attributes p') = Media.url media) as Himg
    by reflexivity.
  assert (Attributes.mediaType (Props.attributes p') = Some "image" ∨
          Attributes.mediaType (Props.attributes p') = Some "video") as Hmt.
  { subst p'. unfold onUploadImage, dispatch. simpl.
    destruct (truthy (Media.media_type media)) eqn:Htruthy.
    - destruct (decide (Media.media_type media = Some "image")); auto.
    - destruct Hkind as [?|[->| ->]]; [discriminate | auto..]. }
  destruct (media_agree p') as (out & Hout & Hsave & Hedit);
    [by rewrite Himg | done |].
  exists out, (getMedia (Attributes.imgUrl (Props.attributes p'))
                        (Attributes.mediaType (Props.attributes p'))).
  repeat split; [done..|].
  rewrite Himg. unfold getMedia. by destruct (decide _).
Qed.

(** X13. After a content change, the next render of the editor shows the
    new content in its rich-text field and the serializer writes it into
    the paragraph; an absent content still gives the field and the
    paragraph, with no value. *)
Theorem setContent_then_render (content : option (list jsval)) (p : Props.t) :
  let p' := rerender p (dispatch (setContent content) (Props.attributes p)) in
  elementsByTag "RichText" (edit __ p')
  = [Elem "RichText"
       [("tagName", JStr "p"); ("className", ostr (Props.className p));
        ("onChange", JFun SetContent); ("value", oarr content)] []] ∧
  (∀ out, save getColorClassName p' = Returned out →
     elementsByTag "RichText.Content" out
     = [Elem "RichText.Content" [("tagName", JStr "p"); ("value", oarr content)] []]) ∧
  ((∃ out, save getColorClassName p' = Returned out) ↔
   (∃ out, save getColorClassName p = Returned out)).
Proof.
  intros p'. split; [|split].
  - unfold edit.
    generalize (classnames (editClassArgs p')) as classes.
    generalize (editStyles p') as styles. intros.
    change (Attributes.content (Props.attributes p')) with content.
    change (Props.className p') with (Props.className p).
    destruct (Props.isSelected p'), (Attributes.extras (Props.attributes p'));
      unfold editControls, editExtras; by_tags; reflexivity.
  - intros out (media & Hmedia & ->)%save_inv.
    change (Attributes.content (Props.attributes p')) with content.
    generalize (classnames (saveClassArgs getColorClassName p')) as classes.
    generalize (saveStyles getColorClassName p') as styles. intros.
    apply saveMedia_cases in Hmedia as [->|[->|[v ->]]];
      destruct (Attributes.extras _); unfold saveExtras; by_tags; reflexivity.
  - assert (saveMedia p' = saveMedia p) as Hsame by reflexivity.
    split; intros [out (media & Hmedia & _)%save_inv].
    + rewrite Hsame in Hmedia.
      rewrite (save_returned getColorClassName p media Hmedia). eauto.
    + rewrite <- Hsame in Hmedia.
      rewrite (save_returned getColorClassName p' media Hmedia). eauto.
Qed.
End NextRender.

Lemma upload_then_render_witness :
  ∃ out shown,
    save slugClassName
      (rerender customRed
         (dispatch (onUploadImage (uploaded (Some "file") None))
            (Props.attributes customRed))) = Returned out ∧
    mediaElements out = [shown] ∧
    mediaElements
      (display (edit sameLabel
         (rerender customRed
            (dispatch (onUploadImage (uploaded (Some "file") None))
               (Props.attributes customRed))))) = [shown] ∧
    prop "src" shown = Some (JStr "https://example.org/party.mp4").
Proof.
  apply (upload_then_render slugClassName sameLabel
           (uploaded (Some "file") None) customRed).
  - reflexivity.
  - left. reflexivity.
Defined.

Lemma setContent_then_render_witness :
  ∃ out,
    save slugClassName
      (rerender customRed
         (dispatch (setContent (Some [JStr "Party"])) (Props.attributes customRed)))
    = Returned out ∧
    elementsByTag "RichText.Content" out
    = [Elem "RichText.Content"
         [("tagName", JStr "p"); ("value", JArr [JStr "Party"])] []].
Proof.
  eexists. split; [reflexivity|].
  apply (proj1 (proj2 (setContent_then_render slugClassName sameLabel
                         (Some [JStr "Party"]) customRed))).
  reflexivity.
Defined.

Lemma save_throws_iff_witness :
  ∃ e, save slugClassName (propsOf (mediaBlock (Some "valueOf") None)) = Threw e.
Proof.
  apply (proj2 (save_throws_iff slugClassName (propsOf (mediaBlock (Some "valueOf") None)))).
  exists "valueOf". split; [reflexivity|].
  unfold uncallable. set_solver.
Defined.

(** ** Static output *)

Lemma functionFree_ostr (v : option string) : functionFree (ostr v) = true.
Proof. by destruct v. Qed.

(** Whatever the media call returns holds no function. *)
Lemma saveMedia_static (p : Props.t) (r : element) :
  saveMedia p = Returned r → staticTree r = true.
Proof.
  unfold saveMedia, getProperty. rewrite mediaTypeRenders_own.
  set (k := toString _). remember objectPrototype as proto eqn:Hproto.
  cbn [get].
  destruct (decide (k = "image")) as [_|_].
  { intros [= <-]. simpl. by destruct (Attributes.imgUrl _). }
  destruct (decide (k = "video")) as [_|_].
  { intros [= <-]. simpl. by destruct (Attributes.imgUrl _). }
  destruct (get k proto) as [m|] eqn:Hget; simpl.
  - subst proto. intros Hcall.
    destruct (call_inherited k m r Hget Hcall) as [v ->].
    apply get_elem_of in Hget. unfold objectPrototype in Hget.
    repeat match type of Hget with
           | _ ∈ _ :: _ => apply elem_of_cons in Hget as [Heq|Hget]
           end;
      try (by apply elem_of_nil in Hget);
      injection Heq as _ ->; simpl in Hcall;
      first [discriminate | by injection Hcall as <-].
  - by intros [= <-].
Qed.

Section Static.
Variable getColorClassName : string → option string → option string.
Variable __ : string → string.

(** X15. What the serializer returns holds no function anywhere, as long
    as the rich-text content holds none: no handler of the editor reaches
    the stored markup.  The editor's tree always holds handlers. *)
Theorem save_is_static (p : Props.t) (out : element) :
  save getColorClassName p = Returned out →
  functionFree (oarr (Attributes.content (Props.attributes p))) = true →
  staticTree out = true ∧ staticTree (edit __ p) = false.
Proof.
  intros (media & Hmedia & ->)%save_inv Hcontent. split.
  - pose proof (saveMedia_static p media Hmedia) as Hstatic.
    unfold saveStyles. cbn [staticTree forallb snd functionFree].
    rewrite Hstatic, Hcontent, !functionFree_ostr.
    destruct (truthy (backgroundClass getColorClassName p)),
             (Attributes.extras (Props.attributes p));
      rewrite ?functionFree_ostr; reflexivity.
  - unfold edit. cbn [staticTree forallb snd functionFree].
    by rewrite !andb_false_r.
Qed.
End Static.

Lemma save_is_static_witness :
  ∃ out, save slugClassName themedRed = Returned out ∧
         staticTree out = true ∧ staticTree (edit sameLabel themedRed) = false.
Proof.
  eexists. split; [reflexivity|].
  apply (save_is_static slugClassName sameLabel themedRed); reflexivity.
Defined.

(** ** The two class sets, name by name *)

Lemma truthy_Some (s : string) : truthy (Some s) = true ↔ s ≠ "".
Proof.
  destruct s as [|c s]; simpl.
  - split; [discriminate | done].
  - split; [discriminate | reflexivity].
Qed.

Lemma classArgNames_str (c : string) (v : option string) :
  c ∈ classArgNames (ClassStr v) ↔ v = Some c ∧ c ≠ "".
Proof.
  unfold classArgNames. destruct v as [s|]; simpl.
  - destruct s as [|a s]; simpl.
    + rewrite elem_of_nil. split; [done | by intros [[= <-] ?]].
    + rewrite list_elem_of_singleton.
      split; [by intros -> | by intros [[= ->] _]].
  - rewrite elem_of_nil. split; [done | by intros [? _]].
Qed.

Section ClassSets.
Variable getColorClassName : string → option string → option string.

(** C8, as amended.  Take a record for which the class the editor was
    handed for the background is the one the serializer looks up.  Both
    functions then compute the same alignment and background names: the
    alignment class when [contentAlign] is set, and the resolved class
    when it is not empty (and not replaced by the alignment entry of the
    same name).  The serializer's classes are these names and
    [has-background], present whenever [backgroundColor] or
    [customBackgroundColor] is set; the editor's classes are these names
    and the class name of the host.  [has-background] is among the shared
    names only when it is the resolved class itself, so otherwise the
    serializer alone carries it. *)
Theorem save_and_edit_classes (p : Props.t) :
  class (Props.backgroundColor p) = backgroundClass getColorClassName p →
  let align := Attributes.contentAlign (Props.attributes p) in
  let resolved := backgroundClass getColorClassName p in
  let shared := λ c : string,
    (c = "has-" +:+ toString align +:+ "-content" ∧ truthy align = true) ∨
    (c ≠ "has-" +:+ toString align +:+ "-content" ∧ resolved = Some c ∧ c ≠ "") in
  (∀ c, c ∈ classSet (saveClassArgs getColorClassName p) ↔
        shared c ∨
        (c = "has-background" ∧
         truthy (or_else (Attributes.backgroundColor (Props.attributes p))
                         (Attributes.customBackgroundColor (Props.attributes p)))
         = true)) ∧
  (∀ c, c ∈ classSet (editClassArgs p) ↔
        shared c ∨ (Props.className p = Some c ∧ c ≠ "")) ∧
  (shared "has-background" ↔ resolved = Some "has-background").
Proof.
  intros Hclass align resolved shared.
  pose proof (align_class_not_marker align) as Halign.
  assert (∀ c, c ≠ "has-" +:+ toString align +:+ "-content" →
               (c = toString resolved ∧ truthy resolved = true) ↔
               (resolved = Some c ∧ c ≠ "")) as Hresolved.
  { intros c _. destruct resolved as [s|]; simpl.
    - rewrite truthy_Some. split; [by intros [-> ?] | by intros [[= ->] ?]].
    - split; [by intros [_ ?] | by intros [? _]]. }
  assert (toString resolved = "has-background" → truthy resolved = true) as Hmarker.
  { destruct resolved as [s|]; simpl; [by intros -> | discriminate]. }
  split; [|split].
  - intros c. unfold classSet.
    rewrite elem_of_list_to_set, saveClassList_elem.
    fold align. fold resolved. unfold shared.
    destruct (decide (c = "has-" +:+ toString align +:+ "-content")) as [->|Hc];
      [intuition congruence|].
    specialize (Hresolved c Hc).
    destruct (decide (c = toString resolved)) as [Heq|Hne];
      [intuition (subst; auto; congruence)|].
    destruct (decide (c = "has-background")) as [->|Hmark];
      [intuition congruence|].
    split; [discriminate | intuition congruence].
  - intros c. unfold classSet, classList, editClassArgs.
    rewrite elem_of_list_to_set, !bind_cons, !elem_of_app.
    change (@nil classArg ≫= classArgNames) with (@nil string).
    rewrite elem_of_nil, classArgNames_str, editObjectNames_elem, Hclass.
    fold align. fold resolved. unfold shared.
    destruct (decide (c = "has-" +:+ toString align +:+ "-content")) as [->|Hc];
      [intuition congruence|].
    specialize (Hresolved c Hc).
    destruct (decide (c = toString resolved)) as [Heq|Hne];
      [intuition (subst; auto; congruence)|].
    split; [intros [?|[?|[]]]; [by right | discriminate] | intuition congruence].
  - unfold shared. split.
    + by intros [[? _]|(_ & ? & _)].
    + intros Hr. right. by rewrite Hr.
Qed.
End ClassSets.

Lemma save_and_edit_classes_witness :
  "has-background" ∈ classSet (saveClassArgs slugClassName themedRed) ∧
  ("has-background" ∉ classSet (editClassArgs themedRed)) ∧
  "wp-block-cgb-block-cgb-hello-gutenberg" ∈ classSet (editClassArgs themedRed) ∧
  ("wp-block-cgb-block-cgb-hello-gutenberg"
     ∉ classSet (saveClassArgs slugClassName themedRed)).
Proof.
  pose proof (save_and_edit_classes slugClassName themedRed eq_refl)
    as (Hsave & Hedit & _).
  split; [|split; [|split]].
  - apply (proj2 (Hsave _)). right. split; reflexivity.
  - intros [[[H _]|(_ & H & _)]|[H _]]%(proj1 (Hedit _)); discriminate H.
  - apply (proj2 (Hedit _)). right. split; [reflexivity | discriminate].
  - intros [[[H _]|(_ & H & _)]|[H _]]%(proj1 (Hsave _)); discriminate H.
Defined.
